(** * A portfolio backend: risk scorer, echo service and database probe

    Shallow embedding of [src/main.py] (a FastAPI application) and the
    properties of its handlers.

    Conventions of the embedding.
    - Python [float] values are read as real numbers ([R]): the arithmetic
      of [predict_risk] is the exact-real reading of the double-precision
      expressions of the source.  Infinities, NaN and rounding error are
      outside this reading.  Python [int] is [Z]; mixed [int * float]
      arithmetic converts the integer with [IZR].
    - Python [str] is a list of Unicode code points ([PyStr.str]), so that
      slicing [s[:50]] counts characters, as Python does.
    - A Python [dict] with a fixed set of string keys that is updated in
      place is a [gmap string _]; a [dict] whose key order is observed is an
      insertion-ordered association list.
    - Code that raises and catches exceptions is written in a small
      state-and-exception monad. *)

From Stdlib Require Import Reals Lra Lia ZArith Zfloor.
From Stdlib Require Import String Ascii.
From stdpp Require Import gmap strings list.

(** ** Python strings *)

Module PyStr.

(** A Python [str]: the sequence of its code points. *)
Definition str : Type := list N.

(** UTF-8 decoding of the bytes of a source literal. *)
Fixpoint utf8_decode (bs : list N) : str :=
  match bs with
  | [] => []
  | b0 :: t0 =>
      if (b0 <? 128)%N then b0 :: utf8_decode t0
      else if (b0 <? 224)%N then
        match t0 with
        | b1 :: t1 => ((b0 - 192) * 64 + (b1 - 128))%N :: utf8_decode t1
        | _ => []
        end
      else if (b0 <? 240)%N then
        match t0 with
        | b1 :: b2 :: t2 =>
            ((b0 - 224) * 4096 + (b1 - 128) * 64 + (b2 - 128))%N
              :: utf8_decode t2
        | _ => []
        end
      else
        match t0 with
        | b1 :: b2 :: b3 :: t3 =>
            ((b0 - 240) * 262144 + (b1 - 128) * 4096
             + (b2 - 128) * 64 + (b3 - 128))%N :: utf8_decode t3
        | _ => []
        end
  end.

(** A string literal of the source, as a Python [str]. *)
Definition py (s : string) : str :=
  utf8_decode (List.map N_of_ascii (list_ascii_of_string s)).

(** [s[:n]] *)
Definition slice_to (n : nat) (s : str) : str := take n s.

(** Truthiness of an [Optional[str]]: [None] and [""] are false. *)
Definition truthy (o : option str) : bool :=
  match o with
  | Some (_ :: _) => true
  | _ => false
  end.

End PyStr.

(** ** The risk scorer: [predict_risk] *)

Module Risk.
Local Open Scope R_scope.

(** [class RiskFeatures(BaseModel)] *)
Record RiskFeatures : Type := {
  income : R;
  debt : R;
  num_credit_lines : Z;
  missed_payments : Z;
  age : Z
}.

(** The bounds declared by the [Field(...)] of each attribute. *)
Definition valid (f : RiskFeatures) : Prop :=
  0 <= income f /\ 0 <= debt f /\
  (0 <= num_credit_lines f)%Z /\ (0 <= missed_payments f)%Z /\
  (18 <= age f <= 100)%Z.

(** The [features] sub-dictionary of the result. *)
Record EchoedFeatures : Type := {
  echoed_dti : R;
  echoed_age : Z;
  echoed_num_credit_lines : Z;
  echoed_missed_payments : Z
}.

(** The dictionary returned by [predict_risk]. *)
Record RiskScoreResult : Type := {
  risk_probability : R;
  category : string;
  features : EchoedFeatures
}.

(** Python's two-argument [min(a, b)]: [b] replaces [a] only when
    [b < a]. *)
Definition py_min (a b : R) : R := if Rlt_dec b a then b else a.

(** [x ** y] on floats with a positive base. *)
Definition py_pow (x y : R) : R := Rpower x y.

(** Rounding to the nearest integer, ties to the even one. *)
Definition round_half_even (x : R) : Z :=
  let n := Zfloor x in
  let r := x - IZR n in
  if Rlt_dec r (1 / 2) then n
  else if Rlt_dec (1 / 2) r then (n + 1)%Z
  else if Z.even n then n else (n + 1)%Z.

(** [round(x, ndigits)] *)
Definition py_round (x : R) (ndigits : nat) : R :=
  IZR (round_half_even (x * 10 ^ ndigits)) / 10 ^ ndigits.

(** The base of the power in the sigmoid line, as written in the source. *)
Definition exp_base : R := 2.718281828.

(** Feature engineering, one definition per assignment of the source. *)
Definition dti (f : RiskFeatures) : R :=
  if Rlt_dec 0 (income f) then debt f / (income f + 1e-6) else 10.0.

Definition payment_penalty (f : RiskFeatures) : R :=
  py_min (IZR (missed_payments f) * 0.25) 3.0.

Definition credit_util_penalty (f : RiskFeatures) : R :=
  py_min (IZR (num_credit_lines f) * 0.05) 1.5.

Definition age_bonus (f : RiskFeatures) : R :=
  -0.01 * IZR (age f - 30).

(** Score before squashing. *)
Definition linear_score (f : RiskFeatures) : R :=
  1.5 * dti f + payment_penalty f + credit_util_penalty f + age_bonus f.

(** [risk_prob = 1 / (1 + (2.718281828)**(-linear_score))] *)
Definition risk_prob (f : RiskFeatures) : R :=
  1 / (1 + py_pow exp_base (- linear_score f)).

(** The [if / elif / else] that picks the category from [risk_prob]. *)
Definition categorize (p : R) : string :=
  if Rlt_dec p 0.33 then "low"
  else if Rlt_dec p 0.66 then "medium"
  else "high".

Definition predict_risk (f : RiskFeatures) : RiskScoreResult :=
  {| risk_probability := py_round (risk_prob f) 4;
     category := categorize (risk_prob f);
     features :=
       {| echoed_dti := py_round (dti f) 4;
          echoed_age := age f;
          echoed_num_credit_lines := num_credit_lines f;
          echoed_missed_payments := missed_payments f |} |}.

(** The logistic sigmoid as the specification words it:
    [1 / (1 + e^(-x))] with [e] the base of the natural exponential. *)
Definition spec_sigmoid (x : R) : R := 1 / (1 + exp (- x)).

(** The end-to-end example of the specification. *)
Definition example_features : RiskFeatures :=
  {| income := 5000; debt := 15000; num_credit_lines := 3;
     missed_payments := 2; age := 30 |}.

(** The example with no income. *)
Definition zero_income_features : RiskFeatures :=
  {| income := 0; debt := 15000; num_credit_lines := 3;
     missed_payments := 2; age := 30 |}.



End Risk.

(** ** The request boundary of [/api/ml/predict] *)

Module Boundary.
Import Risk.
Local Open Scope R_scope.

(** The numeric bounds of a [Field(..., ge=..., le=...)] declaration. *)
Record Field (A : Type) : Type := { ge : option A; le : option A }.
Arguments ge {A} _.
Arguments le {A} _.

(** The five declarations of [class RiskFeatures]. *)
Definition income_field : Field R := {| ge := Some 0; le := None |}.
Definition debt_field : Field R := {| ge := Some 0; le := None |}.
Definition num_credit_lines_field : Field Z :=
  {| ge := Some 0%Z; le := None |}.
Definition missed_payments_field : Field Z :=
  {| ge := Some 0%Z; le := None |}.
Definition age_field : Field Z := {| ge := Some 18%Z; le := Some 100%Z |}.

Inductive Constraint : Type := greater_than_equal | less_than_equal.

(** One entry of the error list of a rejected request. *)
Record FieldError : Type := { loc : string; violated : Constraint }.

Inductive Response (A : Type) : Type :=
| ClientError (errors : list FieldError)
| Success (result : A).
Arguments ClientError {A} _.
Arguments Success {A} _.

Definition Rleb (a b : R) : bool := if Rle_dec a b then true else false.

(** Modelled from the spec: the validation that the web framework runs
    on a request body before the handler is called; the framework is not
    part of the source, only the [Field] declarations above are.  A value
    is checked against the lower bound, then the upper bound, of its
    field, and a violated bound yields one error naming the field. *)
Definition check {A : Type} (leb : A -> A -> bool)
    (name : string) (fld : Field A) (v : A) : list FieldError :=
  match ge fld with
  | Some lo =>
      if leb lo v then
        match le fld with
        | Some hi =>
            if leb v hi then []
            else [ {| loc := name; violated := less_than_equal |} ]
        | None => []
        end
      else [ {| loc := name; violated := greater_than_equal |} ]
  | None =>
      match le fld with
      | Some hi =>
          if leb v hi then []
          else [ {| loc := name; violated := less_than_equal |} ]
      | None => []
      end
  end.

(** Modelled from the spec: all fields are checked, in declaration
    order, and the errors are collected. *)
Definition validate (body : RiskFeatures) : list FieldError :=
  check Rleb "income" income_field (income body)
  ++ check Rleb "debt" debt_field (debt body)
  ++ check Z.leb "num_credit_lines" num_credit_lines_field
       (num_credit_lines body)
  ++ check Z.leb "missed_payments" missed_payments_field
       (missed_payments body)
  ++ check Z.leb "age" age_field (age body).

(** Modelled from the spec: a [POST] route.  The handler is called only
    on a body that passed validation; otherwise the response is a client
    error that carries the list of violations. *)
Definition post {A : Type} (handler : RiskFeatures -> A)
    (body : RiskFeatures) : Response A :=
  match validate body with
  | [] => Success (handler body)
  | errors => ClientError errors
  end.

(** [@app.post("/api/ml/predict")] *)
Definition predict_endpoint : RiskFeatures -> Response RiskScoreResult :=
  post predict_risk.

Definition with_age (a : Z) : RiskFeatures :=
  {| income := 5000; debt := 15000; num_credit_lines := 3;
     missed_payments := 2; age := a |}.

Definition negative_income : RiskFeatures :=
  {| income := -1; debt := 15000; num_credit_lines := 3;
     missed_payments := 2; age := 30 |}.

Definition negative_missed_payments : RiskFeatures :=
  {| income := 5000; debt := 15000; num_credit_lines := 3;
     missed_payments := -1; age := 30 |}.

End Boundary.

(** ** The echo service: [echo] *)

Module Echo.
Import PyStr.

Section WithAny.
(** [typing.Any]: the values of the payload are never inspected. *)
Context {Any : Type}.

(** [Dict[str, Any]]: insertion-ordered, with pairwise distinct keys. *)
Definition Dict : Type := list (str * Any).

Definition well_formed (d : Dict) : Prop := NoDup (d.*1).

(** [len(d)] and [list(d.keys())] *)
Definition len (d : Dict) : nat := List.length d.
Definition keys (d : Dict) : list str := d.*1.

(** [d[k] = v]: an existing key keeps its position. *)
Fixpoint setitem (k : str) (v : Any) (d : Dict) : Dict :=
  match d with
  | [] => [(k, v)]
  | (k', v') :: rest =>
      if decide (k = k') then (k, v) :: rest
      else (k', v') :: setitem k v rest
  end.

(** The dictionary built from the members of a JSON object. *)
Definition of_members (members : list (str * Any)) : Dict :=
  foldl (fun d kv => setitem kv.1 kv.2 d) [] members.

(** [class EchoRequest(BaseModel)], with [default_factory=dict]. *)
Record EchoRequest : Type := { payload : Dict }.

Definition parse_request (body_payload : option Dict) : EchoRequest :=
  {| payload := default [] body_payload |}.

Record Meta : Type := {
  meta_length : nat;
  meta_keys : list str;
  meta_note : str
}.

Record EchoResult : Type := { received : Dict; meta : Meta }.

Definition echo (req : EchoRequest) : EchoResult :=
  {| received := payload req;
     meta :=
       {| meta_length := len (payload req);
          meta_keys := keys (payload req);
          meta_note :=
            py "Echo service is useful for testing JSON integrations." |}
  |}.
End WithAny.

Arguments Dict : clear implicits.
Arguments EchoRequest : clear implicits.
Arguments EchoResult : clear implicits.

(** The example of the specification: [{a: 1, b: 2}]. *)
Definition example_payload : Dict Z :=
  of_members [(py "a", 1%Z); (py "b", 2%Z)].

End Echo.


(** ** The database probe: [test_database] *)

Module DbProbe.
Import PyStr.

(** The values stored in the response dictionary. *)
Inductive PyVal : Type :=
| PyNone
| PyString (s : str)
| PyList (l : list str).

(** A raised exception (an instance of [Exception]): whether it is an
    [ImportError], and its message [str(e)]. *)
Record PyExc : Type := { is_import_error : bool; exc_str : str }.

Inductive Outcome (A : Type) : Type :=
| Returns (a : A)
| Raises (e : PyExc).
Arguments Returns {A} _.
Arguments Raises {A} _.

(** What reading an attribute of an object does. *)
Inductive Attr : Type :=
| AttrAbsent
| AttrIs (v : PyVal)
| AttrRaises (e : PyExc).

(** The database handle [db], as far as the probe observes it. *)
Record Database : Type := {
  name : Attr;
  list_collection_names : Outcome (list str)
}.

(** Statements that update the dictionary [response] and may raise: the
    dictionary is threaded through, and survives a raised exception. *)
Record M (A : Type) : Type :=
  MkM { run : gmap string PyVal -> Outcome A * gmap string PyVal }.
Arguments MkM {A} _.
Arguments run {A} _ _.

#[export] Instance M_ret : MRet M := fun A a => MkM (fun r => (Returns a, r)).

#[export] Instance M_bind : MBind M := fun A B k m =>
  MkM (fun r =>
         match run m r with
         | (Returns a, r') => run (k a) r'
         | (Raises e, r') => (Raises e, r')
         end).

#[export] Instance M_throw : MThrow PyExc M := fun A e =>
  MkM (fun r => (Raises e, r)).

(** An operation of the outside world, with its outcome. *)
Definition perform {A : Type} (o : Outcome A) : M A :=
  match o with
  | Returns a => mret a
  | Raises e => mthrow e
  end.

(** [response[k] = v] *)
Definition setitem (k : string) (v : PyVal) : M unit :=
  MkM (fun r => (Returns tt, <[k := v]> r)).

(** The [except] clauses of a [try]: the first clause whose class matches
    the exception handles it; with no match the exception propagates. *)
Fixpoint handle {A : Type}
    (clauses : list ((PyExc -> bool) * (PyExc -> M A))) (e : PyExc) : M A :=
  match clauses with
  | [] => mthrow e
  | (matches, handler) :: rest =>
      if matches e then handler e else handle rest e
  end.

Definition try_except {A : Type} (body : M A)
    (clauses : list ((PyExc -> bool) * (PyExc -> M A))) : M A :=
  MkM (fun r =>
         match run body r with
         | (Raises e, r') => run (handle clauses e) r'
         | ok => ok
         end).

(** [except ImportError] and [except Exception] *)
Definition ImportError (e : PyExc) : bool := is_import_error e.
Definition Exception (e : PyExc) : bool := true.

(** [hasattr(db, 'name')]: false when the attribute is missing; an error
    other than a missing attribute propagates. *)
Definition hasattr_name (db : Database) : M bool :=
  match name db with
  | AttrAbsent => mret false
  | AttrIs _ => mret true
  | AttrRaises e => mthrow e
  end.

(** [db.name] *)
Definition getattr_name (db : Database) : M PyVal :=
  match name db with
  | AttrAbsent =>
      mthrow {| is_import_error := false;
                exc_str := py "object has no attribute 'name'" |}
  | AttrIs v => mret v
  | AttrRaises e => mthrow e
  end.

(** The outer [try] statement of [test_database]; [db_import] is the
    outcome of [from database import db] ([Returns None] when [db] is
    [None]). *)
Definition probe (db_import : Outcome (option Database)) : M unit :=
  try_except
    (db ← perform db_import;
     match db with
     | Some db =>
         setitem "database" (PyString (py "✅ Available"));;
         setitem "database_url" (PyString (py "✅ Configured"));;
         db_name ← (has ← hasattr_name db;
                    if has : bool then getattr_name db
                    else mret (PyString (py "✅ Connected")));
         setitem "database_name" db_name;;
         setitem "connection_status" (PyString (py "Connected"));;
         try_except
           (collections ← perform (list_collection_names db);
            setitem "collections" (PyList (take 10 collections));;
            setitem "database" (PyString (py "✅ Connected & Working")))
           [(Exception, fun e =>
               setitem "database"
                 (PyString (py "⚠️  Connected but Error: "
                            ++ slice_to 50 (exc_str e))))]
     | None =>
         setitem "database"
           (PyString (py "⚠️  Available but not initialized"))
     end)
    [(ImportError, fun _ =>
        setitem "database"
          (PyString
             (py "❌ Database module not found (run enable-database first)")));
     (Exception, fun e =>
        setitem "database"
          (PyString (py "❌ Error: " ++ slice_to 50 (exc_str e))))].

(** The dictionary literal bound to [response]. *)
Definition initial_response : gmap string PyVal :=
  <["collections" := PyList []]>
  (<["connection_status" := PyString (py "Not Connected")]>
  (<["database_name" := PyNone]>
  (<["database_url" := PyNone]>
  (<["database" := PyString (py "❌ Not Available")]>
  (<["backend" := PyString (py "✅ Running")]> ∅))))).

(** ["✅ Set" if os.getenv(k) else "❌ Not Set"] *)
Definition set_or_not (environ : gmap string str) (k : string) : PyVal :=
  if truthy (environ !! k) then PyString (py "✅ Set")
  else PyString (py "❌ Not Set").

(** The body of [test_database] after the dictionary literal. *)
Definition test_database_body (db_import : Outcome (option Database))
    (environ : gmap string str) : M unit :=
  probe db_import;;
  setitem "database_url" (set_or_not environ "DATABASE_URL");;
  setitem "database_name" (set_or_not environ "DATABASE_NAME").

(** [test_database]: the returned [response], or the exception that
    escapes the handler. *)
Definition test_database (db_import : Outcome (option Database))
    (environ : gmap string str) : Outcome (gmap string PyVal) :=
  match run (test_database_body db_import environ) initial_response with
  | (Returns _, response) => Returns response
  | (Raises e, _) => Raises e
  end.


(** [response[k]] on the returned dictionary. *)
Definition entry (o : Outcome (gmap string PyVal)) (k : string)
    : option PyVal :=
  match o with
  | Returns response => response !! k
  | Raises _ => None
  end.

(** Two environments in which [DATABASE_URL] is set: to the empty string,
    and to a connection string. *)
Definition environ_empty_url : gmap string str :=
  <["DATABASE_URL" := py ""]> ∅.

Definition environ_with_url : gmap string str :=
  <["DATABASE_URL" := py "mongodb://localhost:27017"]> ∅.

End DbProbe.


(** ** Further inputs of the risk scorer *)

Module Scenarios.
Import Risk.
Local Open Scope R_scope.



End Scenarios.

(** * Properties *)

(** ** Real-number facts used by the risk scorer *)

Module RealFacts.
Import Risk.
Local Open Scope R_scope.

Lemma inv_fact_S (n : nat) : / INR (fact (S n)) = / INR (fact n) / INR (S n).
Proof.
  rewrite fact_simpl, mult_INR, Rinv_mult.
  unfold Rdiv. apply Rmult_comm.
Qed.

(** The partial sums of the exponential series are lower bounds of [e]. *)
Lemma E1_12_le_e : E1 1 12 <= exp 1.
Proof.
  apply sum_incr; [apply E1_cvg |].
  intros n. rewrite pow1, Rmult_1_r.
  left. apply Rinv_0_lt_compat, INR_fact_lt_0.
Qed.

Lemma E1_12_value : E1 1 12 = 260412269 / 95800320.
Proof.
  unfold E1. cbn [sum_f_R0].
  rewrite !pow1, !Rmult_1_r, !inv_fact_S.
  change (fact 0) with 1%nat.
  rewrite !S_INR. change (INR 0) with 0. field.
Qed.

(** The thirteenth partial sum already exceeds the literal of the
    source. *)
Lemma exp_base_lt_e : exp_base < exp 1.
Proof.
  pose proof E1_12_le_e as H. rewrite E1_12_value in H.
  unfold exp_base. lra.
Qed.

Lemma exp_base_pos : 0 < exp_base.
Proof. unfold exp_base. lra. Qed.

Lemma ln_exp_base_lt_1 : ln exp_base < 1.
Proof.
  rewrite <- (ln_exp 1).
  apply ln_increasing; [apply exp_base_pos | apply exp_base_lt_e].
Qed.









End RealFacts.

(** ** The risk scorer *)

Module RiskProps.
Import Risk RealFacts.
Local Open Scope R_scope.




(** The power of the source is the natural exponential of the score
    scaled by [ln exp_base]. *)
Lemma risk_prob_as_sigmoid (f : RiskFeatures) :
  risk_prob f = spec_sigmoid (linear_score f * ln exp_base).
Proof.
  unfold risk_prob, spec_sigmoid, py_pow, Rpower.
  now rewrite Ropp_mult_distr_l.
Qed.

(** The source's value and the sigmoid of the specification agree only
    where the linear score is zero. *)
Lemma risk_prob_eq_sigmoid_iff (f : RiskFeatures) :
  risk_prob f = spec_sigmoid (linear_score f) <-> linear_score f = 0.
Proof.
  rewrite risk_prob_as_sigmoid. unfold spec_sigmoid.
  set (s := linear_score f).
  pose proof ln_exp_base_lt_1 as Hln.
  split.
  - intros Heq.
    pose proof (exp_pos (- (s * ln exp_base))) as H1.
    pose proof (exp_pos (- s)) as H2.
    assert (Hinv : / (1 + exp (- (s * ln exp_base))) = / (1 + exp (- s))).
    { unfold Rdiv in Heq. now rewrite !Rmult_1_l in Heq. }
    apply Rinv_eq_reg in Hinv.
    assert (Hexp : exp (- (s * ln exp_base)) = exp (- s)) by lra.
    apply exp_inv in Hexp.
    assert (Hz : s * (1 - ln exp_base) = 0) by lra.
    apply Rmult_integral in Hz. destruct Hz; lra.
  - intros ->. now rewrite Rmult_0_l.
Qed.






(** C2: with a positive income, [dti] is [debt / (income + 1e-6)]; with a
    zero income it is the sentinel [10.0], whatever the debt. *)
Theorem dti_cases (f : RiskFeatures) :
  valid f ->
  (0 < income f -> dti f = debt f / (income f + 1e-6))
  /\ (income f = 0 -> dti f = 10).
Proof.
  intros _. unfold dti.
  destruct (Rlt_dec 0 (income f)) as [Hpos | Hnpos]; split; intros H;
    try reflexivity; lra.
Qed.

Lemma dti_cases_witness :
  dti example_features = 15000 / (5000 + 1e-6)
  /\ dti zero_income_features = 10.
Proof.
  split.
  - apply (dti_cases example_features).
    + unfold valid, example_features; simpl. repeat split; (lra || lia).
    + simpl. lra.
  - apply (dti_cases zero_income_features).
    + unfold valid, zero_income_features; simpl. repeat split; (lra || lia).
    + reflexivity.
Defined.












End RiskProps.

(** ** The request boundary *)

Module BoundaryProps.
Import Risk Boundary.
Local Open Scope R_scope.

Lemma Rleb_true (a b : R) : Rleb a b = true <-> a <= b.
Proof. unfold Rleb. destruct (Rle_dec a b); split; (discriminate || tauto). Qed.

Lemma Rleb_false (a b : R) : Rleb a b = false <-> b < a.
Proof.
  unfold Rleb. destruct (Rle_dec a b); split; intros H;
    (discriminate || reflexivity || lra).
Qed.

Ltac split_checks :=
  unfold validate, income_field, debt_field, num_credit_lines_field,
    missed_payments_field, age_field, check; cbn [ge le].

Ltac decide_bounds body :=
  destruct (Rleb 0 (income body)) eqn:Hi;
  destruct (Rleb 0 (debt body)) eqn:Hd;
  destruct (Z.leb 0 (num_credit_lines body)) eqn:Hn;
  destruct (Z.leb 0 (missed_payments body)) eqn:Hm;
  destruct (Z.leb 18 (age body)) eqn:Ha;
  destruct (Z.leb (age body) 100) eqn:Ha';
  rewrite ?Rleb_true, ?Rleb_false, ?Z.leb_le, ?Z.leb_gt in *.

(** A body passes validation exactly when it is within the declared
    bounds. *)
Lemma validate_nil_iff (body : RiskFeatures) :
  validate body = [] <-> valid body.
Proof.
  unfold valid. split_checks. decide_bounds body; cbn;
    split; intros H; (discriminate || reflexivity || lra || lia || idtac).
  repeat split; (lra || lia).
Qed.


Lemma post_rejects {A : Type} (handler : RiskFeatures -> A)
    (body : RiskFeatures) :
  validate body <> [] -> post handler body = ClientError (validate body).
Proof. unfold post. destruct (validate body); [congruence | reflexivity]. Qed.

Lemma violated_income (body : RiskFeatures) :
  income body < 0 <-> In "income"%string (List.map loc (validate body)).
Proof.
  split_checks. decide_bounds body; cbn;
    intuition (discriminate || lra || lia).
Qed.

Lemma violated_debt (body : RiskFeatures) :
  debt body < 0 <-> In "debt"%string (List.map loc (validate body)).
Proof.
  split_checks. decide_bounds body; cbn;
    intuition (discriminate || lra || lia).
Qed.

Lemma violated_num_credit_lines (body : RiskFeatures) :
  (num_credit_lines body < 0)%Z
  <-> In "num_credit_lines"%string (List.map loc (validate body)).
Proof.
  split_checks. decide_bounds body; cbn;
    intuition (discriminate || lra || lia).
Qed.

Lemma violated_missed_payments (body : RiskFeatures) :
  (missed_payments body < 0)%Z
  <-> In "missed_payments"%string (List.map loc (validate body)).
Proof.
  split_checks. decide_bounds body; cbn;
    intuition (discriminate || lra || lia).
Qed.

Lemma violated_age (body : RiskFeatures) :
  (age body < 18 \/ 100 < age body)%Z
  <-> In "age"%string (List.map loc (validate body)).
Proof.
  split_checks. decide_bounds body; cbn;
    intuition (discriminate || lra || lia).
Qed.

(** C8: a body with a negative income, debt, number of credit lines or
    number of missed payments, or an age outside [18, 100], is answered by
    a client error whose list names exactly the violated fields; the
    response is the same whatever the handler, which is never called. *)
Theorem out_of_range_body_rejected (body : RiskFeatures) :
  income body < 0 \/ debt body < 0 \/ (num_credit_lines body < 0)%Z
  \/ (missed_payments body < 0)%Z \/ (age body < 18)%Z
  \/ (100 < age body)%Z ->
  exists errors : list FieldError,
    errors <> []
    /\ predict_endpoint body = ClientError errors
    /\ (forall (A : Type) (handler : RiskFeatures -> A),
          post handler body = ClientError errors)
    /\ (income body < 0 <-> In "income"%string (List.map loc errors))
    /\ (debt body < 0 <-> In "debt"%string (List.map loc errors))
    /\ ((num_credit_lines body < 0)%Z
        <-> In "num_credit_lines"%string (List.map loc errors))
    /\ ((missed_payments body < 0)%Z
        <-> In "missed_payments"%string (List.map loc errors))
    /\ ((age body < 18 \/ 100 < age body)%Z
        <-> In "age"%string (List.map loc errors)).
Proof.
  intros Hbad.
  assert (Hne : validate body <> []).
  { intros Hnil. apply validate_nil_iff in Hnil.
    destruct Hnil as (? & ? & ? & ? & ? & ?).
    destruct Hbad as [? | [? | [? | [? | [? | ?]]]]]; (lra || lia). }
  exists (validate body).
  split; [exact Hne |].
  split; [apply post_rejects, Hne |].
  split; [intros A handler; apply post_rejects, Hne |].
  split; [apply violated_income |].
  split; [apply violated_debt |].
  split; [apply violated_num_credit_lines |].
  split; [apply violated_missed_payments | apply violated_age].
Qed.

Lemma out_of_range_body_rejected_witness :
  exists errors : list FieldError,
    errors <> []
    /\ predict_endpoint (with_age 17) = ClientError errors
    /\ (forall (A : Type) (handler : RiskFeatures -> A),
          post handler (with_age 17) = ClientError errors)
    /\ (income (with_age 17) < 0 <-> In "income"%string (List.map loc errors))
    /\ (debt (with_age 17) < 0 <-> In "debt"%string (List.map loc errors))
    /\ ((num_credit_lines (with_age 17) < 0)%Z
        <-> In "num_credit_lines"%string (List.map loc errors))
    /\ ((missed_payments (with_age 17) < 0)%Z
        <-> In "missed_payments"%string (List.map loc errors))
    /\ ((age (with_age 17) < 18 \/ 100 < age (with_age 17))%Z
        <-> In "age"%string (List.map loc errors)).
Proof.
  apply (out_of_range_body_rejected (with_age 17)).
  do 4 right. left. cbn [with_age age]. lia.
Defined.

(** The four rejected requests listed by the specification. *)
Lemma rejected_examples :
  predict_endpoint (with_age 17)
  = ClientError [ {| loc := "age"; violated := greater_than_equal |} ]
  /\ predict_endpoint (with_age 101)
     = ClientError [ {| loc := "age"; violated := less_than_equal |} ]
  /\ predict_endpoint negative_income
     = ClientError [ {| loc := "income"; violated := greater_than_equal |} ]
  /\ predict_endpoint negative_missed_payments
     = ClientError
         [ {| loc := "missed_payments"; violated := greater_than_equal |} ].
Proof.
  assert (H5 : Rleb 0 5000 = true) by (apply Rleb_true; lra).
  assert (H15 : Rleb 0 15000 = true) by (apply Rleb_true; lra).
  assert (Hneg : Rleb 0 (-1) = false) by (apply Rleb_false; lra).
  unfold predict_endpoint, post. split_checks.
  cbn [with_age negative_income negative_missed_payments income debt
       num_credit_lines missed_payments age].
  rewrite H5, H15, Hneg. repeat split.
Qed.

End BoundaryProps.

(** ** The echo service *)

Module EchoProps.
Import PyStr Echo.

Section WithAny.
Context {Any : Type}.

Lemma keys_setitem (k : str) (v : Any) (d : Dict Any) :
  keys (setitem k v d) = if decide (k ∈ keys d) then keys d else keys d ++ [k].
Proof.
  unfold keys. induction d as [| [k' v'] d IH]; [reflexivity |].
  cbn [setitem]. destruct (decide (k = k')) as [-> | Hne].
  - cbn. rewrite decide_True; [reflexivity | left].
  - cbn. rewrite IH. destruct (decide (k ∈ d.*1)) as [Hin | Hnin].
    + rewrite decide_True; [reflexivity | now right].
    + rewrite decide_False; [reflexivity |].
      intros Hin. apply elem_of_cons in Hin as [? | ?]; [congruence | auto].
Qed.

Lemma setitem_well_formed (k : str) (v : Any) (d : Dict Any) :
  well_formed d -> well_formed (setitem k v d).
Proof.
  unfold well_formed. intros Hd.
  change ((setitem k v d).*1) with (keys (setitem k v d)).
  rewrite keys_setitem. destruct (decide (k ∈ keys d)) as [Hin | Hnin].
  - exact Hd.
  - apply NoDup_app. split; [exact Hd |]. split.
    + intros x Hx Hk. apply list_elem_of_singleton in Hk as ->. auto.
    + apply NoDup_singleton.
Qed.

(** Every dictionary built from the members of a JSON object has pairwise
    distinct keys. *)
Lemma of_members_well_formed (members : list (str * Any)) :
  well_formed (of_members members).
Proof.
  unfold of_members.
  assert (H : forall d, well_formed d ->
    well_formed (foldl (fun d kv => setitem kv.1 kv.2 d) d members)).
  { induction members as [| kv ms IH]; intros d Hd; [exact Hd |].
    cbn [foldl]. apply IH, setitem_well_formed, Hd. }
  apply H. apply NoDup_nil_2.
Qed.

(** C7: the result carries the payload unchanged under [received]; the
    metadata holds the number of keys, the keys in their order, and a
    fixed note. *)
Theorem echo_returns_payload_and_metadata (req : EchoRequest Any) :
  received (echo req) = payload req
  /\ meta_length (meta (echo req)) = List.length (keys (payload req))
  /\ meta_keys (meta (echo req)) = List.map fst (payload req)
  /\ meta_note (meta (echo req))
     = py "Echo service is useful for testing JSON integrations."
  /\ List.map snd (received (echo req)) = List.map snd (payload req).
Proof.
  cbn [echo received meta meta_length meta_keys meta_note].
  unfold len, keys. rewrite length_fmap. repeat split.
Qed.

End WithAny.

(** The example of the specification. *)
Lemma echo_example :
  let result := echo (parse_request (Some example_payload)) in
  received result = [(py "a", 1%Z); (py "b", 2%Z)]
  /\ meta_length (meta result) = 2
  /\ meta_keys (meta result) = [py "a"; py "b"].
Proof. repeat split. Qed.

(** A request without [payload] echoes the empty mapping. *)
Lemma echo_default :
  let result := echo (parse_request (@None (Dict Z))) in
  received result = [] /\ meta_length (meta result) = 0
  /\ meta_keys (meta result) = [].
Proof. repeat split. Qed.

End EchoProps.

(** ** The database probe *)

Module DbProbeProps.
Import PyStr DbProbe.

Lemma slice_to_length (n : nat) (s : str) : length (slice_to n s) <= n.
Proof. unfold slice_to. rewrite length_take. apply Nat.le_min_l. Qed.


Lemma slice_to_prefix (n : nat) (s : str) : slice_to n s `prefix_of` s.
Proof. unfold slice_to. apply prefix_take. Qed.




Lemma set_or_not_values (environ : gmap string str) (k : string) :
  set_or_not environ k = PyString (py "✅ Set")
  \/ set_or_not environ k = PyString (py "❌ Not Set").
Proof. unfold set_or_not. destruct (truthy (environ !! k)); auto. Qed.



End DbProbeProps.

(** ** Further bounds on the exponential and on rounding *)

Module RealBounds.
Import Risk RealFacts.
Local Open Scope R_scope.













End RealBounds.

(** ** The risk scorer: bounds, monotonicity and saturation *)

Module RiskMore.
Import Risk Scenarios RealFacts RiskProps RealBounds.
Local Open Scope R_scope.

































End RiskMore.

(** ** The database probe: shape and bounds of the response *)

Module DbProbeMore.
Import PyStr DbProbe.

Ltac each_outcome db_import :=
  destruct db_import as [[[nm lst] |] | [imp msg]];
    [destruct nm as [| v | [imp msg]]; destruct lst as [names | [imp' msg']]
    | | ];
    try destruct imp.

Ltac evaluate :=
  unfold test_database, test_database_body, probe;
  cbn -[py insert slice_to set_or_not initial_response].








(** X14: apart from [database_url] and [database_name], no entry of the
    response depends on the environment variables. *)
Theorem probe_entries_ignore_the_environment
    (db_import : Outcome (option Database))
    (environ environ' : gmap string str) (k : string) :
  k <> "database_url" -> k <> "database_name" ->
  entry (test_database db_import environ) k
  = entry (test_database db_import environ') k.
Proof.
  intros Hurl Hname.
  each_outcome db_import;
    (unfold entry; evaluate;
     rewrite !(lookup_insert_ne _ "database_name" k) by congruence;
     rewrite !(lookup_insert_ne _ "database_url" k) by congruence;
     reflexivity).
Qed.

Lemma probe_entries_ignore_the_environment_witness :
  entry (test_database (Returns None) environ_empty_url) "database"
  = entry (test_database (Returns None) environ_with_url) "database".
Proof.
  apply (probe_entries_ignore_the_environment (Returns None)
           environ_empty_url environ_with_url "database");
    discriminate.
Defined.

End DbProbeMore.

(** ** The echo service: the metadata of a dictionary *)

Module EchoMore.
Import PyStr Echo.

(** X15: for a dictionary payload (distinct keys) the listed keys are
    distinct, [length] is the number of distinct keys, and a key is listed
    exactly when the echoed payload binds it. *)
Theorem echo_metadata_counts_distinct_keys {Any : Type}
    (req : EchoRequest Any) :
  well_formed (payload req) ->
  NoDup (meta_keys (meta (echo req)))
  /\ meta_length (meta (echo req))
     = size (list_to_set (meta_keys (meta (echo req))) : gset str)
  /\ (forall k : str,
        k ∈ meta_keys (meta (echo req))
        <-> exists v : Any, (k, v) ∈ received (echo req)).
Proof.
  intros Hwf. cbn [echo meta meta_keys meta_length received].
  unfold well_formed, keys, len in *.
  split; [exact Hwf |]. split.
  - rewrite size_list_to_set by exact Hwf. now rewrite length_fmap.
  - intros k. rewrite list_elem_of_fmap. split.
    + intros [[k' v] [-> Hin]]. now exists v.
    + intros [v Hin]. now exists (k, v).
Qed.

Lemma echo_metadata_counts_distinct_keys_witness :
  NoDup (meta_keys (meta (echo (parse_request (Some example_payload)))))
  /\ meta_length (meta (echo (parse_request (Some example_payload))))
     = size (list_to_set
               (meta_keys (meta (echo (parse_request (Some example_payload)))))
             : gset str)
  /\ (forall k : str,
        k ∈ meta_keys (meta (echo (parse_request (Some example_payload))))
        <-> exists v : Z,
              (k, v) ∈ received (echo (parse_request (Some example_payload)))).
Proof.
  apply (echo_metadata_counts_distinct_keys
           (parse_request (Some example_payload))).
  exact (EchoProps.of_members_well_formed _).
Defined.

End EchoMore.

(** ** The route: validation composed with the scorer *)

Module BoundaryMore.
Import Risk Boundary RealFacts RiskProps RealBounds RiskMore BoundaryProps.
Local Open Scope R_scope.



End BoundaryMore.
